(** * ASN Lookup: a shallow embedding of [asn_lookup.py]

    The script has two functions, [get_ip_from_input] and [asn_lookup], and a
    command-line block that prints what they return.  Both functions are glue
    around library calls ([socket.inet_aton], [socket.gethostbyname],
    [ipwhois.IPWhois] and its [lookup_rdap] method): the library calls are
    taken as collaborators, the code around them is embedded statement by
    statement in a small state-and-exception monad whose state records the
    text written to standard output and the library calls made. *)

From Stdlib Require Import String Ascii List Bool NArith ZArith Lia.
From Stdlib Require Import DecimalString.
Import ListNotations.
Open Scope string_scope.

(** ** The fragment of the Python runtime the script relies on *)

Module Py.

(** Exception classes that the script names, that its collaborators raise
    and that its own expressions raise ([KeyError] on a missing key and the
    like).  [OSError] is the class [socket.error] is an alias of. *)
Inductive ExcClass : Set :=
| BaseException | KeyboardInterrupt | SystemExit | Exception
| OSError | gaierror | herror
| ValueError | UnicodeError | TypeError | AttributeError
| LookupError | KeyError
| IPDefinedError | HTTPLookupError | ASNRegistryError.

Definition ExcClass_eqb (a b : ExcClass) : bool :=
  match a, b with
  | BaseException, BaseException | KeyboardInterrupt, KeyboardInterrupt
  | SystemExit, SystemExit | Exception, Exception | OSError, OSError
  | gaierror, gaierror | herror, herror | ValueError, ValueError
  | UnicodeError, UnicodeError | TypeError, TypeError
  | AttributeError, AttributeError | LookupError, LookupError
  | KeyError, KeyError | IPDefinedError, IPDefinedError
  | HTTPLookupError, HTTPLookupError
  | ASNRegistryError, ASNRegistryError => true
  | _, _ => false
  end.

(** Method resolution order: the class itself, then its bases. *)
Definition mro (c : ExcClass) : list ExcClass :=
  match c with
  | BaseException => [BaseException]
  | KeyboardInterrupt => [KeyboardInterrupt; BaseException]
  | SystemExit => [SystemExit; BaseException]
  | Exception => [Exception; BaseException]
  | OSError => [OSError; Exception; BaseException]
  | gaierror => [gaierror; OSError; Exception; BaseException]
  | herror => [herror; OSError; Exception; BaseException]
  | ValueError => [ValueError; Exception; BaseException]
  | UnicodeError => [UnicodeError; ValueError; Exception; BaseException]
  | TypeError => [TypeError; Exception; BaseException]
  | AttributeError => [AttributeError; Exception; BaseException]
  | LookupError => [LookupError; Exception; BaseException]
  | KeyError => [KeyError; LookupError; Exception; BaseException]
  | IPDefinedError => [IPDefinedError; Exception; BaseException]
  | HTTPLookupError => [HTTPLookupError; Exception; BaseException]
  | ASNRegistryError => [ASNRegistryError; Exception; BaseException]
  end.

(** A raised exception: its class and [str(e)]. *)
Record exc : Set := mkExc { exc_class : ExcClass; exc_str : string }.

(** [isinstance(e, c)], the test an [except c] clause makes. *)
Definition isinstance (e : exc) (c : ExcClass) : bool :=
  existsb (ExcClass_eqb c) (mro (exc_class e)).

(** Values: what a registry response is made of. *)
#[warnings="-register-all"] Inductive value : Set :=
| VNone
| VBool (b : bool)
| VInt (z : Z)
| VStr (s : string)
| VList (items : list value)
| VDict (entries : list (string * value)).

(** Truth value of an object, as [if x:] takes it. *)
Definition truthy (v : value) : bool :=
  match v with
  | VNone => false
  | VBool b => b
  | VInt z => negb (Z.eqb z 0)
  | VStr s => negb (String.eqb s "")
  | VList items => match items with [] => false | _ => true end
  | VDict entries => match entries with [] => false | _ => true end
  end.

(** Truth value of [ip_address], which is [None] or a [str]. *)
Definition truthy_str (v : option string) : bool :=
  match v with
  | None => false
  | Some s => negb (String.eqb s "")
  end.

(** Truth value of [is_domain], which is [None], [False] or [True]. *)
Definition truthy_bool (v : option bool) : bool :=
  match v with
  | None => false
  | Some b => b
  end.

(** Library calls, as they are recorded in the world ([CallLookupWhois] is
    the WHOIS-only [lookup_whois], which the script never calls). *)
Inductive Call : Set :=
| CallInetAton (s : string)
| CallGetHostByName (s : string)
| CallIPWhois (ip : string)
| CallLookupRdap (asn_methods : list string)
| CallLookupWhois.

(** The world a run acts on: each [print] appends its text to [stdout]
    (the newline that ends it is left implicit), each library call is
    appended to [calls]. *)
Record World : Set := mkWorld { stdout : list string; calls : list Call }.

Definition w0 : World := mkWorld [] [].

Inductive Outcome (A : Type) : Type :=
| Return (a : A)
| Raise (e : exc).
Arguments Return {A} a.
Arguments Raise {A} e.

Definition M (A : Type) : Type := World -> Outcome A * World.

Definition ret {A} (a : A) : M A := fun w => (Return a, w).
Definition raise {A} (e : exc) : M A := fun w => (Raise e, w).
Definition bind {A B} (m : M A) (k : A -> M B) : M B :=
  fun w => match m w with
           | (Return a, w') => k a w'
           | (Raise e, w') => (Raise e, w')
           end.

Definition print (text : string) : M unit :=
  fun w => (Return tt, mkWorld (stdout w ++ [text]) (calls w)).

(** A library call: it is recorded, then it returns or raises. *)
Definition call {A} (c : Call) (r : Outcome A) : M A :=
  fun w => (r, mkWorld (stdout w) (calls w ++ [c])).

(** [try: body / except c1 as e: h1 / except c2 as e: h2 ...]: the first
    clause whose class the exception is an instance of handles it; with no
    such clause the exception propagates. *)
Fixpoint handle {A} (clauses : list (ExcClass * (exc -> M A))) (e : exc)
  : M A :=
  match clauses with
  | [] => raise e
  | (c, h) :: rest => if isinstance e c then h e else handle rest e
  end.

Definition try_except {A} (body : M A)
           (clauses : list (ExcClass * (exc -> M A))) : M A :=
  fun w => match body w with
           | (Return a, w') => (Return a, w')
           | (Raise e, w') => handle clauses e w'
           end.

Definition when (b : bool) (m : M unit) : M unit :=
  if b then m else ret tt.

Fixpoint for_each {A} (items : list A) (body : A -> M unit) : M unit :=
  match items with
  | [] => ret tt
  | x :: rest => bind (body x) (fun _ => for_each rest body)
  end.

End Py.

Import Py.

Declare Scope py_scope.
Delimit Scope py_scope with py.
Notation "x <- m ;; k" := (bind m (fun x => k))
  (at level 61, m at next level, right associativity) : py_scope.
Notation "m ;; k" := (bind m (fun _ => k))
  (at level 61, right associativity) : py_scope.
Open Scope py_scope.

(** ** Input resolver (lines 57-70) *)

(** The two [socket] functions the resolver calls.  [inet_aton] returns the
    packed address (which the script discards) or raises; [gethostbyname]
    returns one address or raises. *)
Record Socket : Type := mkSocket {
  inet_aton : string -> Outcome N;
  gethostbyname : string -> Outcome string
}.

Section Resolver.

Variable socket : Socket.

Definition get_ip_from_input (user_input : string)
  : M (option string * option bool) :=
  try_except
    (_ <- call (CallInetAton user_input) (inet_aton socket user_input) ;;
     ret (Some user_input, Some false))
    [(OSError, fun _ =>
        try_except
          (ip_address <- call (CallGetHostByName user_input)
                              (gethostbyname socket user_input) ;;
           ret (Some ip_address, Some true))
          [(gaierror, fun _ =>
              print "Invalid input: neither a valid IP address nor a resolvable domain." ;;
              ret (None, None))])].

End Resolver.

(** ** The C library's [inet_aton], which [socket.inet_aton] wraps

    The numbers-and-dots parser of inet(3): one to four numbers separated by
    dots, each read as C reads an integer constant ([0x] hexadecimal, leading
    [0] octal, decimal otherwise); every number followed by a dot fills one
    byte, the last number fills the bytes that remain; the text may end after
    the last number or go on with white space.  The routine is not part of
    the script: it stands for the parse step where a property speaks of the
    text that step accepts. *)

Module Libc.

Definition ascii_between (lo hi c : ascii) : bool :=
  (N.leb (N_of_ascii lo) (N_of_ascii c)
   && N.leb (N_of_ascii c) (N_of_ascii hi))%bool.

Definition isdigit (c : ascii) : bool := ascii_between "0" "9" c.

Definition isspace (c : ascii) : bool :=
  (Ascii.eqb c " " || ascii_between "009" "013" c)%bool.

(** Value of [c] as a digit in [base], when it is one. *)
Definition digit_val (base : N) (c : ascii) : option N :=
  let v :=
    if isdigit c then Some (N_of_ascii c - 48)%N
    else if ascii_between "a" "f" c then Some (N_of_ascii c - 87)%N
    else if ascii_between "A" "F" c then Some (N_of_ascii c - 55)%N
    else None in
  match v with
  | Some d => if N.ltb d base then Some d else None
  | None => None
  end.

(** The longest run of digits of [base] at the head of [cs], accumulated
    onto [acc], and the text left after it. *)
Fixpoint scan_digits (base acc : N) (cs : list ascii) : N * list ascii :=
  match cs with
  | [] => (acc, [])
  | c :: rest =>
      match digit_val base c with
      | Some d => scan_digits base (acc * base + d) rest
      | None => (acc, cs)
      end
  end.

Definition has_hex_prefix (cs : list ascii) : bool :=
  match cs with
  | z :: x :: h :: _ =>
      (Ascii.eqb z "0" && (Ascii.eqb x "x" || Ascii.eqb x "X")
       && match digit_val 16 h with Some _ => true | None => false end)%bool
  | _ => false
  end.

Definition starts_with_zero (cs : list ascii) : bool :=
  match cs with
  | z :: _ => Ascii.eqb z "0"
  | [] => false
  end.

(** [strtoul(cp, &endp, 0)] on a text that starts with a digit.  The value
    is not truncated here: the caller rejects what exceeds 32 bits, which
    is also what it does with a saturated [unsigned long]. *)
Definition strtoul (cs : list ascii) : N * list ascii :=
  if has_hex_prefix cs then scan_digits 16 0 (skipn 2 cs)
  else if starts_with_zero cs then scan_digits 8 0 cs
  else scan_digits 10 0 cs.

(** Largest last number, by the count of bytes already filled. *)
Definition max_last (filled : nat) : N :=
  nth filled [4294967295; 16777215; 65535; 255]%N 0%N.

Definition trailing_ok (rest : list ascii) : bool :=
  match rest with
  | [] => true
  | c :: _ => isspace c
  end.

(** The address as a number: the filled bytes lead, the last number takes
    the low end. *)
Definition pack (bytes : list N) (last : N) : N :=
  (fold_left (fun acc b => acc * 256 + b) (bytes ++ repeat 0 (4 - length bytes)) 0
   + last)%N.

(** The parsing loop; [room] counts the bytes a dotted number may still
    fill (three at the start). *)
Fixpoint inet_aton_from (room : nat) (bytes : list N) (cs : list ascii)
  : option N :=
  match cs with
  | [] => None
  | c :: _ =>
      if isdigit c then
        let '(val, rest) := strtoul cs in
        if N.ltb 4294967295 val then None
        else
          match rest with
          | "."%char :: rest' =>
              match room with
              | O => None
              | S room' =>
                  if N.ltb 255 val then None
                  else inet_aton_from room' (bytes ++ [val]) rest'
              end
          | _ =>
              if (trailing_ok rest && N.leb val (max_last (length bytes)))%bool
              then Some (pack bytes val)
              else None
          end
      else None
  end.

Definition inet_aton (s : string) : option N :=
  inet_aton_from 3 [] (list_ascii_of_string s).

End Libc.

(** Whether the text holds a NUL character. *)
Definition has_nul (s : string) : bool :=
  existsb (Ascii.eqb "000") (list_ascii_of_string s).

(** [socket.inet_aton]: text with an embedded NUL is refused with
    [ValueError] before the C routine sees it; otherwise the packed address
    when the C routine accepts the text, [OSError] when it does not. *)
Definition socket_inet_aton (s : string) : Outcome N :=
  if has_nul s then Raise (mkExc ValueError "embedded null character")
  else
    match Libc.inet_aton s with
    | Some packed => Return packed
    | None =>
        Raise (mkExc OSError "illegal IP address string passed to inet_aton")
    end.

(** A [socket] module whose [inet_aton] is the C routine and whose name
    service is [dns]. *)
Definition socket_with (dns : string -> Outcome string) : Socket :=
  mkSocket socket_inet_aton dns.

(** ** IPv4 dotted-quad literals *)

Fixpoint split_on (sep : ascii) (cs : list ascii) : list (list ascii) :=
  match cs with
  | [] => [[]]
  | c :: rest =>
      if Ascii.eqb c sep then [] :: split_on sep rest
      else match split_on sep rest with
           | part :: parts => (c :: part) :: parts
           | [] => [[c]]
           end
  end.

Definition digit (c : ascii) : N := (N_of_ascii c - 48)%N.

(** One to three decimal digits, no leading zero unless the octet is [0],
    value at most 255. *)
Definition is_octet (part : list ascii) : bool :=
  match part with
  | [a] => Libc.isdigit a
  | [a; b] => (Libc.isdigit a && negb (Ascii.eqb a "0") && Libc.isdigit b)%bool
  | [a; b; c] =>
      (Libc.isdigit a && negb (Ascii.eqb a "0") && Libc.isdigit b
       && Libc.isdigit c
       && N.leb (digit a * 100 + digit b * 10 + digit c) 255)%bool
  | _ => false
  end.

Definition is_dotted_quad (s : string) : bool :=
  match split_on "." (list_ascii_of_string s) with
  | [a; b; c; d] => (is_octet a && is_octet b && is_octet c && is_octet d)%bool
  | _ => false
  end.

(** ** ASN lookup client (lines 72-82) *)

(** The [ipwhois] collaborator: constructing [IPWhois(ip)] gives an object
    or raises, and so does the object's [lookup_rdap(asn_methods=...)]. *)
Record Registry (Obj : Type) : Type := mkRegistry {
  IPWhois : string -> Outcome Obj;
  lookup_rdap : Obj -> list string -> Outcome value
}.
Arguments mkRegistry {Obj} _ _.
Arguments IPWhois {Obj} _ _.
Arguments lookup_rdap {Obj} _ _ _.

(** What one registry query comes to: the two calls in sequence. *)
Definition registry_query {Obj} (registry : Registry Obj) (ip : string)
           (asn_methods : list string) : Outcome value :=
  match IPWhois registry ip with
  | Return obj => lookup_rdap registry obj asn_methods
  | Raise e => Raise e
  end.

Section Lookup.

Context {Obj : Type}.
Variable registry : Registry Obj.

Definition asn_lookup (ip : string) : M value :=
  try_except
    (obj <- call (CallIPWhois ip) (IPWhois registry ip) ;;
     res <- call (CallLookupRdap ["whois"])
                 (lookup_rdap registry obj ["whois"]) ;;
     ret res)
    [(IPDefinedError, fun e => print ("Error: " ++ exc_str e) ;; ret VNone);
     (Exception, fun e =>
        print ("ASN lookup failed: " ++ exc_str e) ;; ret VNone)].

End Lookup.

(** ** Command-line block (lines 84-129) *)

(** [d[key]] and [d.get(key, default)] read the first entry under [key];
    the entries of a dict have distinct keys. *)
Fixpoint dict_lookup (key : string) (entries : list (string * value))
  : option value :=
  match entries with
  | [] => None
  | (k, v) :: rest => if String.eqb k key then Some v else dict_lookup key rest
  end.

Definition type_name (v : value) : string :=
  match v with
  | VNone => "NoneType"
  | VBool _ => "bool"
  | VInt _ => "int"
  | VStr _ => "str"
  | VList _ => "list"
  | VDict _ => "dict"
  end.

(** [v[key]] with a [str] key. *)
Definition subscript (v : value) (key : string) : M value :=
  match v with
  | VDict entries =>
      match dict_lookup key entries with
      | Some x => ret x
      | None => raise (mkExc KeyError ("'" ++ key ++ "'"))
      end
  | VStr _ => raise (mkExc TypeError "string indices must be integers, not 'str'")
  | VList _ =>
      raise (mkExc TypeError "list indices must be integers or slices, not str")
  | _ => raise (mkExc TypeError
                      ("'" ++ type_name v ++ "' object is not subscriptable"))
  end.

(** [v.get(key, default)]: only a dict has the method. *)
Definition get (v : value) (key : string) (default : value) : M value :=
  match v with
  | VDict entries =>
      match dict_lookup key entries with
      | Some x => ret x
      | None => ret default
      end
  | _ => raise (mkExc AttributeError
                      ("'" ++ type_name v ++ "' object has no attribute 'get'"))
  end.

(** The items a [for] loop over [v] visits. *)
Definition iterate (v : value) : M (list value) :=
  match v with
  | VList items => ret items
  | VDict entries => ret (map (fun kv => VStr (fst kv)) entries)
  | VStr s => ret (map (fun c => VStr (String c "")) (list_ascii_of_string s))
  | _ => raise (mkExc TypeError
                      ("'" ++ type_name v ++ "' object is not iterable"))
  end.

Definition newline : string := String "010" "".

Section Main.

Context {Obj : Type}.
Variable socket : Socket.
Variable registry : Registry Obj.

(** [repr] of a list or a dict, which is how an f-string shows one. *)
Variable repr : value -> string.

(** The text an f-string field [{v}] contributes. *)
Definition format (v : value) : string :=
  match v with
  | VNone => "None"
  | VBool true => "True"
  | VBool false => "False"
  | VInt z => NilZero.string_of_int (Z.to_int z)
  | VStr s => s
  | _ => repr v
  end.

(** Lines 101-108. *)
Definition print_asn (ip_address : string) (asn_info : value) : M unit :=
  print ("ASN Information for " ++ ip_address ++ ":") ;;
  print "" ;;
  asn <- subscript asn_info "asn" ;;
  print ("ASN: " ++ format asn) ;;
  asn_cidr <- subscript asn_info "asn_cidr" ;;
  print ("ASN CIDR: " ++ format asn_cidr) ;;
  asn_country_code <- subscript asn_info "asn_country_code" ;;
  print ("ASN Country Code: " ++ format asn_country_code) ;;
  asn_registry <- subscript asn_info "asn_registry" ;;
  print ("ASN Registry: " ++ format asn_registry) ;;
  asn_description <- subscript asn_info "asn_description" ;;
  print ("ASN Description: " ++ format asn_description) ;;
  asn_date <- subscript asn_info "asn_date" ;;
  print ("ASN Allocation Date: " ++ format asn_date).

(** One line of the network details: [print(f"{label}{network_info.get(key, 'N/A')}")]. *)
Definition print_network_field (network_info : value) (label key : string)
  : M unit :=
  v <- get network_info key (VStr "N/A") ;;
  print (label ++ format v).

(** Lines 111-119. *)
Definition print_network (asn_info : value) : M unit :=
  network_info <- get asn_info "network" (VDict []) ;;
  when (truthy network_info)
    (print (newline ++ "Network Details:") ;;
     print_network_field network_info "Network Name: " "name" ;;
     print_network_field network_info "Network Start IP: " "start_address" ;;
     print_network_field network_info "Network End IP: " "end_address" ;;
     print_network_field network_info "Network Country: " "country" ;;
     print_network_field network_info "Network Type: " "type" ;;
     print_network_field network_info "Network Description: " "description").

(** Line 126. *)
Definition print_event (event : value) : M unit :=
  action <- get event "event_action" (VStr "N/A") ;;
  date <- get event "event_date" (VStr "N/A") ;;
  print ("Event: " ++ format action ++ ", Date: " ++ format date).

(** Lines 122-126. *)
Definition print_events (asn_info : value) : M unit :=
  events <- get asn_info "events" (VList []) ;;
  when (truthy events)
    (print (newline ++ "Event History:") ;;
     items <- iterate events ;;
     for_each items print_event).

(** Lines 89-129, for the line [user_input] that [input] read at line 86. *)
Definition main (user_input : string) : M unit :=
  r <- get_ip_from_input socket user_input ;;
  let '(ip_address, is_domain) := r in
  if truthy_str ip_address then
    match ip_address with
    | Some ip =>
        when (truthy_bool is_domain)
          (print "" ;;
           print ("IP address for " ++ user_input ++ " is " ++ ip) ;;
           print "") ;;
        asn_info <- asn_lookup registry ip ;;
        when (truthy asn_info)
          (print_asn ip asn_info ;;
           print_network asn_info ;;
           print_events asn_info)
    | None => ret tt
    end
  else print "Could not perform ASN lookup due to invalid input.".

End Main.


(** ** The data model, read off what the functions return *)

(** The pair [get_ip_from_input] returns, as the resolution result of the
    data model.  The script has no validity flag of its own: validity is the
    test its caller makes on the address ([if ip_address:], line 91). *)
Record ResolutionResult : Set := mkResolutionResult {
  address : option string;
  sourceWasHostname : option bool;
  valid : bool
}.

Definition resolution_result (r : option string * option bool)
  : ResolutionResult :=
  mkResolutionResult (fst r) (snd r) (truthy_str (fst r)).

(** Counting library calls in a log. *)
Definition count_calls (p : Call -> bool) (log : list Call) : nat :=
  length (filter p log).

Definition is_dns_call (c : Call) : bool :=
  match c with CallGetHostByName _ => true | _ => false end.

Definition is_IPWhois_call (c : Call) : bool :=
  match c with CallIPWhois _ => true | _ => false end.

Definition is_rdap_call (c : Call) : bool :=
  match c with CallLookupRdap _ => true | _ => false end.

Definition is_whois_only_call (c : Call) : bool :=
  match c with CallLookupWhois => true | _ => false end.

(** The library calls one run of [asn_lookup] makes. *)
Definition query_log {Obj} (registry : Registry Obj) (ip : string)
  : list Call :=
  CallIPWhois ip ::
  match IPWhois registry ip with
  | Return _ => [CallLookupRdap ["whois"]]
  | Raise _ => []
  end.

(** The text line 126 prints for an event that is a dict. *)
Definition event_text (repr : value -> string) (event : value) : string :=
  match event with
  | VDict entries =>
      let field key :=
        match dict_lookup key entries with
        | Some v => v
        | None => VStr "N/A"
        end in
      "Event: " ++ format repr (field "event_action")
      ++ ", Date: " ++ format repr (field "event_date")
  | _ => ""
  end.

Definition is_dict (v : value) : bool :=
  match v with VDict _ => true | _ => false end.

(** ** Stub collaborators, for running the script on concrete inputs *)

(** A name service that knows one host. *)
Definition stub_dns (s : string) : Outcome string :=
  if String.eqb s "dns.google" then Return "8.8.8.8"
  else Raise (mkExc gaierror "[Errno -2] Name or service not known").

(** A registry whose [IPWhois(ip)] raises [e]. *)
Definition refusing_registry (e : exc) : Registry unit :=
  mkRegistry (fun _ => Raise e) (fun _ _ => Return VNone).

(** A registry whose [lookup_rdap] raises [e]. *)
Definition failing_registry (e : exc) : Registry unit :=
  mkRegistry (fun _ => Return tt) (fun _ _ => Raise e).

(** A registry whose [lookup_rdap] answers [res]. *)
Definition answering_registry (res : value) : Registry unit :=
  mkRegistry (fun _ => Return tt) (fun _ _ => Return res).

Definition stub_repr (v : value) : string := "<repr>".

Definition google_asn : list (string * value) :=
  [("asn", VStr "15169"); ("asn_cidr", VStr "8.8.8.0/24");
   ("asn_country_code", VStr "US"); ("asn_registry", VStr "arin");
   ("asn_description", VStr "GOOGLE, US"); ("asn_date", VStr "2023-12-28")].

(** A response with no [network] entry. *)
Definition response_without_network : value := VDict google_asn.

(** A response whose events are not in the order of their dates. *)
Definition unordered_events : list value :=
  [VDict [("event_action", VStr "last changed"); ("event_date", VStr "2020-01-01")];
   VDict [("event_action", VStr "registration"); ("event_date", VStr "2015-05-05")]].

Definition response_with_events : value :=
  VDict (google_asn ++ [("events", VList unordered_events)]).

(** ** Closed forms for what the command-line block does *)

(** Lines 97-126: what the block does once it holds an address. *)
Definition lookup_and_print {Obj} (registry : Registry Obj)
           (repr : value -> string) (ip : string) : M unit :=
  asn_info <- asn_lookup registry ip ;;
  when (truthy asn_info)
    (print_asn repr ip asn_info ;;
     print_network repr asn_info ;;
     print_events repr asn_info).

(** The labels and keys of lines 103-108, in the order of the lines. *)
Definition asn_fields : list (string * string) :=
  [("ASN: ", "asn"); ("ASN CIDR: ", "asn_cidr");
   ("ASN Country Code: ", "asn_country_code");
   ("ASN Registry: ", "asn_registry");
   ("ASN Description: ", "asn_description");
   ("ASN Allocation Date: ", "asn_date")].

(** The labels and keys of lines 114-119, in the order of the lines. *)
Definition network_fields : list (string * string) :=
  [("Network Name: ", "name"); ("Network Start IP: ", "start_address");
   ("Network End IP: ", "end_address"); ("Network Country: ", "country");
   ("Network Type: ", "type"); ("Network Description: ", "description")].

Definition has_key (entries : list (string * value)) (field : string * string)
  : bool :=
  match dict_lookup (snd field) entries with
  | Some _ => true
  | None => false
  end.

(** The line a field gives: its label, then the entry under its key, [N/A]
    when there is none. *)
Definition field_line (repr : value -> string)
           (entries : list (string * value)) (field : string * string)
  : string :=
  fst field ++
  format repr match dict_lookup (snd field) entries with
              | Some v => v
              | None => VStr "N/A"
              end.

(** A [socket] module whose [inet_aton] raises [e] whatever the text. *)
Definition socket_raising (e : exc) (dns : string -> Outcome string)
  : Socket :=
  mkSocket (fun _ => Raise e) dns.

(** A response with a [network] entry that lacks most fields. *)
Definition response_with_network : value :=
  VDict (google_asn ++
         [("network", VDict [("name", VStr "GOGL"); ("country", VNone)])]).

(** A response with the ASN keys, a network and events. *)
Definition response_complete : list (string * value) :=
  google_asn ++
  [("network", VDict [("name", VStr "GOGL"); ("country", VStr "US")]);
   ("events", VList unordered_events)].

(** ** Auxiliary notions for reasoning about the parser *)

(** The inverse of [split_on]. *)
Fixpoint join (sep : ascii) (parts : list (list ascii)) : list ascii :=
  match parts with
  | [] => []
  | [part] => part
  | part :: rest => part ++ sep :: join sep rest
  end.

(** Text at which a number ends: the end of the string or a dot. *)
Definition number_ends (rest : list ascii) : Prop :=
  rest = [] \/ exists rest', rest = "."%char :: rest'.

(** The number a run of decimal digits writes, continuing [acc]. *)
Definition decimal (ds : list ascii) (acc : N) : N :=
  fold_left (fun a c => (a * 10 + digit c)%N) ds acc.

(** * Properties *)

(** ** The parser accepts every dotted quad *)

Section DottedQuad.

Import Libc.

Lemma split_on_join (sep : ascii) (cs : list ascii) :
  join sep (split_on sep cs) = cs.
Proof.
  induction cs as [|c rest IH]; [reflexivity|].
  cbn [split_on]. destruct (Ascii.eqb_spec c sep) as [->|Hne].
  - destruct (split_on sep rest) as [|part parts] eqn:E.
    + cbn in IH |- *. now subst.
    + change (join sep ([] :: part :: parts))
        with (sep :: join sep (part :: parts)).
      now rewrite IH.
  - destruct (split_on sep rest) as [|part parts] eqn:E.
    + cbn in IH |- *. now subst.
    + destruct parts; cbn in IH |- *; now rewrite IH.
Qed.

Lemma isdigit_decimal (c : ascii) :
  isdigit c = true ->
  digit_val 10 c = Some (digit c) /\ (digit c <= 9)%N.
Proof.
  destruct c as [[] [] [] [] [] [] [] []]; vm_compute;
    try discriminate; intros _; split; try reflexivity; discriminate.
Qed.

Lemma scan_digits_ends (base acc : N) (rest : list ascii) :
  number_ends rest -> scan_digits base acc rest = (acc, rest).
Proof. intros [->|[rest' ->]]; reflexivity. Qed.

Lemma scan_decimal (ds rest : list ascii) :
  number_ends rest ->
  forall acc, forallb isdigit ds = true ->
  scan_digits 10 acc (ds ++ rest) = (decimal ds acc, rest).
Proof.
  intros Hrest. induction ds as [|d ds IH]; intros acc Hds.
  - now apply scan_digits_ends.
  - cbn in Hds. apply andb_prop in Hds as [Hd Hds].
    cbn [app scan_digits]. destruct (isdigit_decimal d Hd) as [-> _].
    now rewrite IH.
Qed.

Lemma no_hex_prefix (z : ascii) (cs : list ascii) :
  Ascii.eqb z "0" = false -> has_hex_prefix (z :: cs) = false.
Proof.
  intros Hz. destruct cs as [|x [|h t]]; cbn; try reflexivity.
  now rewrite Hz.
Qed.

Lemma no_hex_prefix_dot (z : ascii) (rest : list ascii) :
  number_ends rest -> has_hex_prefix (z :: rest) = false.
Proof.
  intros [->|[rest' ->]]; [reflexivity|].
  destruct rest' as [|h t]; cbn; [reflexivity|].
  now rewrite andb_false_r.
Qed.

(** An octet is read as the decimal number it writes. *)
Lemma is_octet_digits (part : list ascii) :
  is_octet part = true ->
  forallb isdigit part = true /\
  (exists c t, part = c :: t /\ isdigit c = true) /\
  (part = ["0"%char] \/ exists c t, part = c :: t /\ Ascii.eqb c "0" = false) /\
  (decimal part 0 <= 255)%N.
Proof.
  destruct part as [|a [|b [|c [|d t]]]]; cbn [is_octet]; try discriminate.
  - intros Ha. repeat split.
    + cbn. now rewrite Ha.
    + now exists a, [].
    + destruct (Ascii.eqb a "0") eqn:E.
      * apply Ascii.eqb_eq in E as ->. now left.
      * right. now exists a, [].
    + destruct (isdigit_decimal a Ha) as [_ Hle]. cbn. lia.
  - intros H. apply andb_prop in H as [H Hb]. apply andb_prop in H as [Ha Hz].
    repeat split.
    + cbn. now rewrite Ha, Hb.
    + now exists a, [b].
    + right. exists a, [b]. split; [reflexivity|].
      now apply negb_true_iff.
    + destruct (isdigit_decimal a Ha) as [_ Hle].
      destruct (isdigit_decimal b Hb) as [_ Hle']. cbn. lia.
  - intros H. apply andb_prop in H as [H Hv]. apply andb_prop in H as [H Hc].
    apply andb_prop in H as [H Hb]. apply andb_prop in H as [Ha Hz].
    repeat split.
    + cbn. now rewrite Ha, Hb, Hc.
    + now exists a, [b; c].
    + right. exists a, [b; c]. split; [reflexivity|].
      now apply negb_true_iff.
    + apply N.leb_le in Hv. cbn. lia.
Qed.

Lemma strtoul_octet (part rest : list ascii) :
  is_octet part = true -> number_ends rest ->
  strtoul (part ++ rest) = (decimal part 0, rest).
Proof.
  intros Hoct Hrest.
  destruct (is_octet_digits part Hoct) as (Hds & _ & [->|(c & t & -> & Hc)] & _).
  - unfold strtoul. cbn [app].
    rewrite (no_hex_prefix_dot _ _ Hrest). cbn [starts_with_zero].
    cbn. now apply scan_digits_ends.
  - unfold strtoul. cbn [app]. rewrite (no_hex_prefix _ _ Hc).
    cbn [starts_with_zero]. rewrite Hc.
    now apply (scan_decimal (c :: t) rest Hrest 0%N).
Qed.

Lemma inet_aton_from_dot (room : nat) (bytes : list N) (part rest : list ascii) :
  is_octet part = true ->
  inet_aton_from (S room) bytes (part ++ "."%char :: rest)
  = inet_aton_from room (bytes ++ [decimal part 0]) rest.
Proof.
  intros Hoct.
  assert (Hends : number_ends ("."%char :: rest)) by (right; now exists rest).
  pose proof (strtoul_octet part _ Hoct Hends) as Hnum.
  destruct (is_octet_digits part Hoct) as (_ & (c & t & -> & Hc) & _ & Hle).
  cbn [app inet_aton_from] in Hnum |- *. rewrite Hc, Hnum.
  replace (N.ltb 4294967295 (decimal (c :: t) 0)) with false
    by (symmetry; apply N.ltb_ge; lia).
  replace (N.ltb 255 (decimal (c :: t) 0)) with false
    by (symmetry; apply N.ltb_ge; lia).
  reflexivity.
Qed.

Lemma inet_aton_from_last (room : nat) (bytes : list N) (part : list ascii) :
  is_octet part = true -> length bytes = 3 ->
  inet_aton_from room bytes part = Some (pack bytes (decimal part 0)).
Proof.
  intros Hoct Hlen.
  assert (Hends : number_ends []) by now left.
  pose proof (strtoul_octet part _ Hoct Hends) as Hnum.
  rewrite app_nil_r in Hnum.
  destruct (is_octet_digits part Hoct) as (_ & (c & t & -> & Hc) & _ & Hle).
  destruct room; cbn [inet_aton_from]; rewrite Hc, Hnum, Hlen;
    (replace (N.ltb 4294967295 (decimal (c :: t) 0)) with false
      by (symmetry; apply N.ltb_ge; lia));
    cbn [trailing_ok andb max_last nth];
    (replace (N.leb (decimal (c :: t) 0) 255) with true
      by (symmetry; apply N.leb_le; lia));
    reflexivity.
Qed.

Lemma inet_aton_accepts_dotted_quad (s : string) :
  is_dotted_quad s = true -> exists packed, Libc.inet_aton s = Some packed.
Proof.
  unfold is_dotted_quad, Libc.inet_aton. intros H.
  pose proof (split_on_join "." (list_ascii_of_string s)) as Hjoin.
  destruct (split_on "." (list_ascii_of_string s))
    as [|a [|b [|c [|d [|x t]]]]]; try discriminate.
  apply andb_prop in H as [H Hd]. apply andb_prop in H as [H Hc].
  apply andb_prop in H as [Ha Hb].
  cbn [join] in Hjoin. rewrite <- Hjoin.
  rewrite !inet_aton_from_dot by assumption.
  rewrite inet_aton_from_last by (assumption || reflexivity).
  eauto.
Qed.

Lemma dotted_quad_not_empty (s : string) :
  is_dotted_quad s = true -> s <> "".
Proof. intros H ->. discriminate. Qed.

End DottedQuad.

Lemma digits_hold_no_nul (part : list ascii) :
  forallb Libc.isdigit part = true ->
  existsb (Ascii.eqb "000") part = false.
Proof.
  induction part as [|c rest IH]; [reflexivity|].
  cbn [forallb existsb]. intros H. apply andb_prop in H as [Hc Hrest].
  rewrite (IH Hrest), orb_false_r. revert Hc.
  destruct c as [[] [] [] [] [] [] [] []]; vm_compute; congruence.
Qed.

Lemma dotted_quad_no_nul (s : string) :
  is_dotted_quad s = true -> has_nul s = false.
Proof.
  unfold is_dotted_quad, has_nul. intros H.
  pose proof (split_on_join "." (list_ascii_of_string s)) as Hjoin.
  destruct (split_on "." (list_ascii_of_string s))
    as [|a [|b [|c [|d [|x t]]]]]; try discriminate.
  apply andb_prop in H as [H Hd]. apply andb_prop in H as [H Hc].
  apply andb_prop in H as [Ha Hb].
  cbn [join] in Hjoin. rewrite <- Hjoin.
  apply is_octet_digits in Ha as [Ha _]. apply is_octet_digits in Hb as [Hb _].
  apply is_octet_digits in Hc as [Hc _]. apply is_octet_digits in Hd as [Hd _].
  repeat (rewrite existsb_app; cbn [existsb]).
  rewrite (digits_hold_no_nul a Ha), (digits_hold_no_nul b Hb),
    (digits_hold_no_nul c Hc), (digits_hold_no_nul d Hd).
  reflexivity.
Qed.

(** ** Running the resolver *)

Section ResolverFacts.

Variable socket : Socket.

(** Text that [inet_aton] accepts comes back as it is, flagged as a direct
    address, and the name service is not asked. *)
Lemma resolve_accepted (s : string) (packed : N) (w : World) :
  inet_aton socket s = Return packed ->
  get_ip_from_input socket s w
  = (Return (Some s, Some false),
     mkWorld (stdout w) (calls w ++ [CallInetAton s])).
Proof.
  intros H. unfold get_ip_from_input, try_except, bind, call, ret.
  now rewrite H.
Qed.

Lemma resolve_by_name (s a : string) (e : exc) (w : World) :
  inet_aton socket s = Raise e -> isinstance e OSError = true ->
  gethostbyname socket s = Return a ->
  get_ip_from_input socket s w
  = (Return (Some a, Some true),
     mkWorld (stdout w) (calls w ++ [CallInetAton s; CallGetHostByName s])).
Proof.
  intros H He Ha. unfold get_ip_from_input, try_except, bind, call, ret.
  rewrite H. cbn [handle]. rewrite He. cbn. rewrite Ha.
  now rewrite <- app_assoc.
Qed.

Lemma resolve_failed (s : string) (e1 e2 : exc) (w : World) :
  inet_aton socket s = Raise e1 -> isinstance e1 OSError = true ->
  gethostbyname socket s = Raise e2 -> isinstance e2 gaierror = true ->
  get_ip_from_input socket s w
  = (Return (None, None),
     mkWorld
       (stdout w ++
        ["Invalid input: neither a valid IP address nor a resolvable domain."])
       (calls w ++ [CallInetAton s; CallGetHostByName s])).
Proof.
  intros H1 He1 H2 He2.
  unfold get_ip_from_input, try_except, bind, call, ret, print.
  rewrite H1. cbn [handle]. rewrite He1. cbn. rewrite H2.
  cbn [handle]. rewrite He2. cbn.
  now rewrite <- app_assoc.
Qed.

End ResolverFacts.

Lemma count_calls_app (p : Call -> bool) (l1 l2 : list Call) :
  count_calls p (l1 ++ l2) = count_calls p l1 + count_calls p l2.
Proof. unfold count_calls. now rewrite filter_app, length_app. Qed.

(** C3.  A valid IPv4 dotted-quad literal is returned as it is, flagged as a
    direct address and valid; the only library call made is the parse, so
    nothing checks the range the address lies in and the name service is
    not asked. *)
Theorem resolve_dotted_quad_literal
        (dns : string -> Outcome string) (s : string) (w : World) :
  is_dotted_quad s = true ->
  get_ip_from_input (socket_with dns) s w
  = (Return (Some s, Some false),
     mkWorld (stdout w) (calls w ++ [CallInetAton s]))
  /\ resolution_result (Some s, Some false)
     = mkResolutionResult (Some s) (Some false) true
  /\ count_calls is_dns_call
       (calls (snd (get_ip_from_input (socket_with dns) s w)))
     = count_calls is_dns_call (calls w).
Proof.
  intros Hquad.
  destruct (inet_aton_accepts_dotted_quad s Hquad) as [packed Hacc].
  assert (Hrun : inet_aton (socket_with dns) s = Return packed).
  { cbn. unfold socket_inet_aton.
    now rewrite (dotted_quad_no_nul s Hquad), Hacc. }
  rewrite (resolve_accepted _ s packed w Hrun). repeat split.
  - unfold resolution_result, truthy_str. cbn [fst snd].
    destruct (String.eqb_spec s "") as [E|_]; [|reflexivity].
    now apply dotted_quad_not_empty in Hquad.
  - cbn [snd calls]. rewrite count_calls_app. cbn. lia.
Qed.

Lemma resolve_dotted_quad_literal_witness :
  get_ip_from_input (socket_with stub_dns) "10.0.0.1" w0
  = (Return (Some "10.0.0.1", Some false),
     mkWorld [] [CallInetAton "10.0.0.1"]).
Proof.
  exact (proj1 (resolve_dotted_quad_literal stub_dns "10.0.0.1" w0 eq_refl)).
Defined.

(** C9.  The parse step accepts text that is no dotted quad, the shorthand
    [127.1] and the bare number [2130706433] among it: such text is returned
    unchanged as a direct, valid address and the name service is not
    asked. *)
Theorem resolve_accepts_non_dotted_quads
        (dns : string -> Outcome string) (w : World) :
  (is_dotted_quad "127.1" = false
   /\ get_ip_from_input (socket_with dns) "127.1" w
      = (Return (Some "127.1", Some false),
         mkWorld (stdout w) (calls w ++ [CallInetAton "127.1"]))
   /\ valid (resolution_result (Some "127.1", Some false)) = true)
  /\
  (is_dotted_quad "2130706433" = false
   /\ get_ip_from_input (socket_with dns) "2130706433" w
      = (Return (Some "2130706433", Some false),
         mkWorld (stdout w) (calls w ++ [CallInetAton "2130706433"]))
   /\ valid (resolution_result (Some "2130706433", Some false)) = true).
Proof.
  split; (split; [reflexivity|split; [|reflexivity]]);
    now apply (resolve_accepted (socket_with dns) _ 2130706433%N).
Qed.

(** C5.  Text that the parse step rejects and that the name service maps to
    the address [a] resolves to [a], flagged as a hostname and valid; the
    name service is asked once. *)
Theorem resolve_hostname
        (socket : Socket) (h a : string) (e : exc) (w : World) :
  inet_aton socket h = Raise e -> isinstance e OSError = true ->
  gethostbyname socket h = Return a -> a <> "" ->
  get_ip_from_input socket h w
  = (Return (Some a, Some true),
     mkWorld (stdout w) (calls w ++ [CallInetAton h; CallGetHostByName h]))
  /\ resolution_result (Some a, Some true)
     = mkResolutionResult (Some a) (Some true) true
  /\ count_calls is_dns_call
       (calls (snd (get_ip_from_input socket h w)))
     = S (count_calls is_dns_call (calls w)).
Proof.
  intros H He Ha Hne. rewrite (resolve_by_name socket h a e w H He Ha).
  repeat split.
  - unfold resolution_result, truthy_str. cbn [fst snd].
    now destruct (String.eqb_spec a "").
  - cbn [snd calls]. rewrite count_calls_app. cbn. lia.
Qed.

Lemma resolve_hostname_witness :
  get_ip_from_input (socket_with stub_dns) "dns.google" w0
  = (Return (Some "8.8.8.8", Some true),
     mkWorld [] [CallInetAton "dns.google"; CallGetHostByName "dns.google"]).
Proof.
  refine (proj1 (resolve_hostname (socket_with stub_dns) "dns.google" "8.8.8.8"
                   (mkExc OSError "illegal IP address string passed to inet_aton")
                   w0 eq_refl eq_refl eq_refl _)).
  discriminate.
Defined.






(** ** Running the lookup client *)

Section LookupFacts.

Context {Obj : Type}.
Variable registry : Registry Obj.

Lemma asn_lookup_answered (ip : string) (res : value) (w : World) :
  registry_query registry ip ["whois"] = Return res ->
  asn_lookup registry ip w
  = (Return res, mkWorld (stdout w) (calls w ++ query_log registry ip)).
Proof.
  unfold registry_query, query_log, asn_lookup, try_except, bind, call, ret.
  destruct (IPWhois registry ip) as [obj|e]; [|discriminate].
  intros ->. cbn. now rewrite <- app_assoc.
Qed.

(** When the query raises, the [except] clauses run in the world the query
    left. *)
Lemma asn_lookup_raised (ip : string) (e : exc) (w : World) :
  registry_query registry ip ["whois"] = Raise e ->
  asn_lookup registry ip w
  = handle
      [(IPDefinedError, fun e => print ("Error: " ++ exc_str e) ;; ret VNone);
       (Exception, fun e =>
          print ("ASN lookup failed: " ++ exc_str e) ;; ret VNone)]
      e (mkWorld (stdout w) (calls w ++ query_log registry ip)).
Proof.
  unfold registry_query, query_log, asn_lookup, try_except, bind, call, ret.
  destruct (IPWhois registry ip) as [obj|e0].
  - intros ->. cbn. now rewrite <- app_assoc.
  - intros [= ->]. reflexivity.
Qed.

Lemma asn_lookup_reserved (ip : string) (e : exc) (w : World) :
  registry_query registry ip ["whois"] = Raise e ->
  isinstance e IPDefinedError = true ->
  asn_lookup registry ip w
  = (Return VNone,
     mkWorld (stdout w ++ ["Error: " ++ exc_str e])
             (calls w ++ query_log registry ip)).
Proof.
  intros H He. rewrite (asn_lookup_raised ip e w H).
  cbn [handle]. now rewrite He.
Qed.

Lemma asn_lookup_failed (ip : string) (e : exc) (w : World) :
  registry_query registry ip ["whois"] = Raise e ->
  isinstance e IPDefinedError = false ->
  isinstance e Exception = true ->
  asn_lookup registry ip w
  = (Return VNone,
     mkWorld (stdout w ++ ["ASN lookup failed: " ++ exc_str e])
             (calls w ++ query_log registry ip)).
Proof.
  intros H He He'. rewrite (asn_lookup_raised ip e w H).
  cbn [handle]. now rewrite He, He'.
Qed.

(** An exception that is no instance of [Exception] (an interrupt, an exit)
    is handled by neither clause. *)
Lemma asn_lookup_propagates (ip : string) (e : exc) (w : World) :
  registry_query registry ip ["whois"] = Raise e ->
  isinstance e Exception = false ->
  asn_lookup registry ip w
  = (Raise e, mkWorld (stdout w) (calls w ++ query_log registry ip)).
Proof.
  intros H He. rewrite (asn_lookup_raised ip e w H).
  assert (He' : isinstance e IPDefinedError = false).
  { revert He. unfold isinstance. destruct (exc_class e); cbn; congruence. }
  cbn [handle]. now rewrite He', He.
Qed.

Lemma asn_lookup_calls (ip : string) (w : World) :
  calls (snd (asn_lookup registry ip w))
  = (calls w ++ query_log registry ip)%list.
Proof.
  destruct (registry_query registry ip ["whois"]) as [res|e] eqn:H.
  - now rewrite (asn_lookup_answered ip res w H).
  - rewrite (asn_lookup_raised ip e w H). cbn [handle].
    destruct (isinstance e IPDefinedError); [reflexivity|].
    destruct (isinstance e Exception); reflexivity.
Qed.

End LookupFacts.

Lemma prefixes_differ (m m' : string) :
  "Error: " ++ m <> "ASN lookup failed: " ++ m'.
Proof. cbn. discriminate. Qed.

(** C1, as amended.  When the registry query raises the reserved-address
    condition, the lookup returns [None] and prints [Error: ] followed by the
    collaborator's message; that line differs from every line the generic
    failure prints. *)
Theorem lookup_reserved_address
        {Obj : Type} (registry : Registry Obj) (ip : string) (e : exc)
        (w : World) :
  registry_query registry ip ["whois"] = Raise e ->
  isinstance e IPDefinedError = true ->
  asn_lookup registry ip w
  = (Return VNone,
     mkWorld (stdout w ++ ["Error: " ++ exc_str e])
             (calls w ++ query_log registry ip))
  /\ forall e' : exc,
       "Error: " ++ exc_str e <> "ASN lookup failed: " ++ exc_str e'.
Proof.
  intros H He. split.
  - now apply asn_lookup_reserved.
  - intros e'. apply prefixes_differ.
Qed.

Lemma lookup_reserved_address_witness :
  asn_lookup (refusing_registry (mkExc IPDefinedError "127.0.0.1 is reserved"))
             "127.0.0.1" w0
  = (Return VNone,
     mkWorld ["Error: 127.0.0.1 is reserved"] [CallIPWhois "127.0.0.1"]).
Proof.
  exact (proj1 (lookup_reserved_address
                  (refusing_registry (mkExc IPDefinedError "127.0.0.1 is reserved"))
                  "127.0.0.1" _ w0 eq_refl eq_refl)).
Defined.

(** C1 as stated fails: the value returned for a reserved address is the
    value returned for any other failure, [None]. *)
Lemma reserved_failure_returns_plain_None :
  fst (asn_lookup
         (refusing_registry (mkExc IPDefinedError "127.0.0.1 is reserved"))
         "127.0.0.1" w0)
  = Return VNone
  /\ fst (asn_lookup
            (failing_registry (mkExc HTTPLookupError "HTTP lookup failed"))
            "127.0.0.1" w0)
     = Return VNone.
Proof. split; reflexivity. Qed.

(** C2, as amended.  Any other exception of the collaborator (an instance of
    [Exception]) is caught: the lookup returns [None] and prints
    [ASN lookup failed: ] followed by the collaborator's message. *)
Theorem lookup_other_failure
        {Obj : Type} (registry : Registry Obj) (ip : string) (e : exc)
        (w : World) :
  registry_query registry ip ["whois"] = Raise e ->
  isinstance e IPDefinedError = false ->
  isinstance e Exception = true ->
  asn_lookup registry ip w
  = (Return VNone,
     mkWorld (stdout w ++ ["ASN lookup failed: " ++ exc_str e])
             (calls w ++ query_log registry ip)).
Proof. intros H He He'. now apply asn_lookup_failed. Qed.

Lemma lookup_other_failure_witness :
  asn_lookup (failing_registry (mkExc HTTPLookupError "HTTP lookup failed"))
             "8.8.8.8" w0
  = (Return VNone,
     mkWorld ["ASN lookup failed: HTTP lookup failed"]
             [CallIPWhois "8.8.8.8"; CallLookupRdap ["whois"]]).
Proof.
  exact (lookup_other_failure
           (failing_registry (mkExc HTTPLookupError "HTTP lookup failed"))
           "8.8.8.8" _ w0 eq_refl eq_refl eq_refl).
Defined.

(** C2 as stated fails: two failures with different kinds and messages give
    the same returned value, [None], which carries neither. *)
Lemma failure_returns_no_kind_or_message :
  fst (asn_lookup
         (failing_registry (mkExc HTTPLookupError "HTTP lookup failed"))
         "8.8.8.8" w0)
  = fst (asn_lookup
           (failing_registry (mkExc ASNRegistryError "ASN registry lookup failed"))
           "8.8.8.8" w0)
  /\ fst (asn_lookup
            (failing_registry (mkExc HTTPLookupError "HTTP lookup failed"))
            "8.8.8.8" w0)
     = Return VNone.
Proof. split; reflexivity. Qed.

(** C10.  On a successful registry query the lookup returns the response
    itself and prints nothing. *)
Theorem lookup_returns_response_unchanged
        {Obj : Type} (registry : Registry Obj) (ip : string) (res : value)
        (w : World) :
  registry_query registry ip ["whois"] = Return res ->
  asn_lookup registry ip w
  = (Return res, mkWorld (stdout w) (calls w ++ query_log registry ip)).
Proof. intros H. now apply asn_lookup_answered. Qed.

Lemma lookup_returns_response_unchanged_witness :
  asn_lookup (answering_registry response_without_network) "8.8.8.8" w0
  = (Return response_without_network,
     mkWorld [] [CallIPWhois "8.8.8.8"; CallLookupRdap ["whois"]]).
Proof.
  exact (lookup_returns_response_unchanged
           (answering_registry response_without_network) "8.8.8.8" _ w0
           eq_refl).
Defined.

(** C8, as amended.  One lookup constructs [IPWhois(ip)] once.  When that
    succeeds it makes one registry lookup, [lookup_rdap] with
    [asn_methods=["whois"]], whose response or exception decides what the
    lookup returns and prints; when constructing the object raises, no
    lookup is made and that exception decides.  A WHOIS-only lookup is
    never made. *)
Theorem lookup_issues_at_most_one_rdap_query
        {Obj : Type} (registry : Registry Obj) (ip : string) (w : World) :
  asn_lookup registry ip w
  = match registry_query registry ip ["whois"] with
    | Return res =>
        (Return res, mkWorld (stdout w) (calls w ++ query_log registry ip))
    | Raise e =>
        if isinstance e IPDefinedError then
          (Return VNone,
           mkWorld (stdout w ++ ["Error: " ++ exc_str e])
                   (calls w ++ query_log registry ip))
        else if isinstance e Exception then
          (Return VNone,
           mkWorld (stdout w ++ ["ASN lookup failed: " ++ exc_str e])
                   (calls w ++ query_log registry ip))
        else
          (Raise e, mkWorld (stdout w) (calls w ++ query_log registry ip))
    end
  /\ query_log registry ip
     = CallIPWhois ip ::
       match IPWhois registry ip with
       | Return _ => [CallLookupRdap ["whois"]]
       | Raise _ => []
       end
  /\ count_calls is_IPWhois_call (query_log registry ip) = 1
  /\ count_calls is_rdap_call (query_log registry ip)
     = match IPWhois registry ip with Return _ => 1 | Raise _ => 0 end
  /\ count_calls is_whois_only_call (query_log registry ip) = 0.
Proof.
  split.
  - destruct (registry_query registry ip ["whois"]) as [res|e] eqn:H.
    + now apply asn_lookup_answered.
    + rewrite (asn_lookup_raised registry ip e w H). cbn [handle].
      destruct (isinstance e IPDefinedError); [reflexivity|].
      destruct (isinstance e Exception); reflexivity.
  - unfold query_log. destruct (IPWhois registry ip); repeat split.
Qed.

(** C8 as stated fails: for an address whose [IPWhois] object cannot be
    constructed, as for a reserved address, no RDAP lookup is made. *)
Lemma reserved_address_issues_no_rdap_query :
  calls (snd (asn_lookup
                (refusing_registry
                   (mkExc IPDefinedError "127.0.0.1 is reserved"))
                "127.0.0.1" w0))
  = [CallIPWhois "127.0.0.1"]
  /\ count_calls is_rdap_call
       (calls (snd (asn_lookup
                      (refusing_registry
                         (mkExc IPDefinedError "127.0.0.1 is reserved"))
                      "127.0.0.1" w0)))
     = 0.
Proof. split; reflexivity. Qed.

(** ** What the command-line block prints *)

Section PrintFacts.

Variable repr : value -> string.

Lemma world_eta (w : World) : mkWorld (stdout w) (calls w) = w.
Proof. now destruct w. Qed.

Lemma print_network_without_network
      (entries : list (string * value)) (w : World) :
  dict_lookup "network" entries = None ->
  print_network repr (VDict entries) w = (Return tt, w).
Proof.
  intros H. unfold print_network, get, bind, ret. now rewrite H.
Qed.

Lemma print_network_field_missing
      (network : list (string * value)) (label key : string) (w : World) :
  dict_lookup key network = None ->
  print_network_field repr (VDict network) label key w
  = (Return tt, mkWorld (stdout w ++ [label ++ "N/A"]) (calls w)).
Proof.
  intros H. unfold print_network_field, get, bind, ret, print.
  now rewrite H.
Qed.

Lemma print_event_dict (entries : list (string * value)) (w : World) :
  print_event repr (VDict entries) w
  = (Return tt,
     mkWorld (stdout w ++ [event_text repr (VDict entries)]) (calls w)).
Proof.
  unfold print_event, get, bind, ret, print, event_text.
  destruct (dict_lookup "event_action" entries);
    destruct (dict_lookup "event_date" entries); reflexivity.
Qed.

Lemma for_each_print_event (events : list value) :
  forallb is_dict events = true ->
  forall w,
    for_each events (print_event repr) w
    = (Return tt,
       mkWorld (stdout w ++ map (event_text repr) events) (calls w)).
Proof.
  induction events as [|event rest IH]; intros Hdicts w.
  - cbn. now rewrite app_nil_r, world_eta.
  - cbn [forallb] in Hdicts. apply andb_prop in Hdicts as [Hd Hrest].
    destruct event as [| | | | |entries]; try discriminate.
    cbn [for_each]. unfold bind at 1. rewrite print_event_dict.
    rewrite (IH Hrest). cbn [stdout calls map].
    now rewrite <- app_assoc.
Qed.

Lemma print_events_listed
      (entries : list (string * value)) (events : list value) (w : World) :
  dict_lookup "events" entries = Some (VList events) ->
  forallb is_dict events = true ->
  print_events repr (VDict entries) w
  = (Return tt,
     mkWorld
       (stdout w ++
        match events with
        | [] => []
        | _ => (newline ++ "Event History:") :: map (event_text repr) events
        end)
       (calls w)).
Proof.
  intros H Hdicts. unfold print_events, get. unfold bind at 1.
  rewrite H. unfold ret at 1. destruct events as [|event rest].
  - cbn. now rewrite app_nil_r, world_eta.
  - cbn [truthy when]. unfold bind at 1, print at 1.
    unfold iterate, bind at 1, ret at 1.
    rewrite (for_each_print_event (event :: rest) Hdicts).
    cbn [stdout calls]. now rewrite <- app_assoc.
Qed.

End PrintFacts.

(** C6 as stated fails: run on a response with no [network] entry, the
    script prints the ASN fields and stops; no network field is shown as
    [N/A]. *)
Lemma missing_network_shows_no_sentinel :
  stdout (snd (main (socket_with stub_dns)
                    (answering_registry response_without_network)
                    stub_repr "8.8.8.8" w0))
  = ["ASN Information for 8.8.8.8:"; ""; "ASN: 15169"; "ASN CIDR: 8.8.8.0/24";
     "ASN Country Code: US"; "ASN Registry: arin";
     "ASN Description: GOOGLE, US"; "ASN Allocation Date: 2023-12-28"]
  /\ ~ In "Network Name: N/A"
         (stdout (snd (main (socket_with stub_dns)
                            (answering_registry response_without_network)
                            stub_repr "8.8.8.8" w0))).
Proof.
  split; [reflexivity|].
  cbn. intros H. repeat (destruct H as [H|H]; [discriminate|]). exact H.
Qed.

(** C7.  The events read from what the lookup returns are the sequence the
    registry supplied, and they are printed one by one in that order. *)
Theorem events_keep_registry_order
        {Obj : Type} (registry : Registry Obj) (repr : value -> string)
        (ip : string) (entries : list (string * value))
        (events : list value) (w : World) :
  registry_query registry ip ["whois"] = Return (VDict entries) ->
  dict_lookup "events" entries = Some (VList events) ->
  forallb is_dict events = true ->
  (asn_info <- asn_lookup registry ip ;; get asn_info "events" (VList [])) w
  = (Return (VList events),
     mkWorld (stdout w) (calls w ++ query_log registry ip))
  /\ forall w1,
      print_events repr (VDict entries) w1
      = (Return tt,
         mkWorld
           (stdout w1 ++
            match events with
            | [] => []
            | _ => (newline ++ "Event History:")
                   :: map (event_text repr) events
            end)
           (calls w1)).
Proof.
  intros H Hev Hdicts. split.
  - unfold bind. rewrite (asn_lookup_answered registry ip _ w H).
    unfold get, ret. now rewrite Hev.
  - intros w1. now apply print_events_listed.
Qed.

Lemma events_keep_registry_order_witness :
  (asn_info <- asn_lookup (answering_registry response_with_events) "8.8.8.8" ;;
   get asn_info "events" (VList [])) w0
  = (Return (VList unordered_events),
     mkWorld [] [CallIPWhois "8.8.8.8"; CallLookupRdap ["whois"]])
  /\ print_events stub_repr response_with_events w0
     = (Return tt,
        mkWorld [newline ++ "Event History:";
                 "Event: last changed, Date: 2020-01-01";
                 "Event: registration, Date: 2015-05-05"] []).
Proof.
  pose proof (events_keep_registry_order
                (answering_registry response_with_events) stub_repr
                "8.8.8.8" _ unordered_events w0 eq_refl eq_refl eq_refl)
    as [Hret Hprint].
  exact (conj Hret (Hprint w0)).
Defined.

(** * Further properties of the script *)

(** ** What the resolver lets through *)

Lemma gaierror_is_OSError (e : exc) :
  isinstance e gaierror = true -> isinstance e OSError = true.
Proof. unfold isinstance. destruct (exc_class e); cbn; congruence. Qed.

(** X1.  An exception of the parse step that is no [socket.error] is not
    handled: it leaves [get_ip_from_input], the name service is not asked
    and nothing is printed. *)
Theorem resolver_propagates_parse_exception
        (socket : Socket) (s : string) (e : exc) (w : World) :
  inet_aton socket s = Raise e -> isinstance e OSError = false ->
  get_ip_from_input socket s w
  = (Raise e, mkWorld (stdout w) (calls w ++ [CallInetAton s])).
Proof.
  intros H He. unfold get_ip_from_input, try_except, bind, call, ret.
  rewrite H. cbn [handle]. now rewrite He.
Qed.

Lemma resolver_propagates_parse_exception_witness :
  get_ip_from_input
    (socket_raising (mkExc ValueError "embedded null character") stub_dns)
    "dns.google" w0
  = (Raise (mkExc ValueError "embedded null character"),
     mkWorld [] [CallInetAton "dns.google"]).
Proof.
  exact (resolver_propagates_parse_exception
           (socket_raising (mkExc ValueError "embedded null character") stub_dns)
           "dns.google" _ w0 eq_refl eq_refl).
Defined.

(** X2.  Only [gaierror] is handled around the name service: any other
    exception it raises leaves [get_ip_from_input], and the invalid-input
    message is not printed. *)
Theorem resolver_propagates_dns_exception
        (socket : Socket) (s : string) (e1 e2 : exc) (w : World) :
  inet_aton socket s = Raise e1 -> isinstance e1 OSError = true ->
  gethostbyname socket s = Raise e2 -> isinstance e2 gaierror = false ->
  get_ip_from_input socket s w
  = (Raise e2,
     mkWorld (stdout w) (calls w ++ [CallInetAton s; CallGetHostByName s])).
Proof.
  intros H1 He1 H2 He2.
  unfold get_ip_from_input, try_except, bind, call, ret.
  rewrite H1. cbn [handle]. rewrite He1. cbn. rewrite H2.
  cbn [handle]. rewrite He2. cbn. now rewrite <- app_assoc.
Qed.

Lemma resolver_propagates_dns_exception_witness :
  get_ip_from_input
    (socket_with (fun _ => Raise (mkExc UnicodeError "label empty or too long")))
    "a..b" w0
  = (Raise (mkExc UnicodeError "label empty or too long"),
     mkWorld [] [CallInetAton "a..b"; CallGetHostByName "a..b"]).
Proof.
  exact (resolver_propagates_dns_exception
           (socket_with
              (fun _ => Raise (mkExc UnicodeError "label empty or too long")))
           "a..b" _ _ w0 eq_refl eq_refl eq_refl eq_refl).
Defined.

(** X3.  Whatever [get_ip_from_input] returns is one of its three pairs:
    the input itself with [False], an address the name service gave for the
    input with [True], or [(None, None)]; so the flag is [None] exactly when
    the address is. *)
Theorem resolver_returns_one_of_three
        (socket : Socket) (s : string) (w w' : World)
        (r : option string * option bool) :
  get_ip_from_input socket s w = (Return r, w') ->
  r = (Some s, Some false)
  \/ (exists a, gethostbyname socket s = Return a /\ r = (Some a, Some true))
  \/ r = (None, None).
Proof.
  unfold get_ip_from_input, try_except, bind, call, ret, print.
  destruct (inet_aton socket s) as [packed|e1].
  - intros [= <- _]. now left.
  - cbn [handle]. destruct (isinstance e1 OSError); [|discriminate].
    cbn. destruct (gethostbyname socket s) as [a|e2].
    + intros [= <- _]. right. left. now exists a.
    + cbn [handle]. destruct (isinstance e2 gaierror); [|discriminate].
      cbn. intros [= <- _]. now right; right.
Qed.

Lemma resolver_returns_one_of_three_witness :
  (Some "8.8.8.8", Some true) = (Some "dns.google", Some false)
  \/ (exists a, stub_dns "dns.google" = Return a
                /\ (Some "8.8.8.8", Some true) = (Some a, Some true))
  \/ (Some "8.8.8.8", Some true) = (None, None).
Proof.
  exact (resolver_returns_one_of_three (socket_with stub_dns) "dns.google"
           w0 _ _ eq_refl).
Defined.

(** X4.  No [gaierror] ever leaves [get_ip_from_input]: raised by the parse
    step it is a [socket.error] and sends the input to the name service,
    raised by the name service it is handled. *)
Theorem resolver_never_raises_gaierror
        (socket : Socket) (s : string) (w w' : World) (e : exc) :
  get_ip_from_input socket s w = (Raise e, w') ->
  isinstance e gaierror = false.
Proof.
  unfold get_ip_from_input, try_except, bind, call, ret, print.
  destruct (inet_aton socket s) as [packed|e1]; [discriminate|].
  cbn [handle]. destruct (isinstance e1 OSError) eqn:He1.
  - cbn. destruct (gethostbyname socket s) as [a|e2]; [discriminate|].
    cbn [handle]. destruct (isinstance e2 gaierror) eqn:He2; [discriminate|].
    cbn. now intros [= <- _].
  - cbn. intros [= <- _].
    destruct (isinstance e1 gaierror) eqn:Hg; [|reflexivity].
    apply gaierror_is_OSError in Hg. congruence.
Qed.

Lemma resolver_never_raises_gaierror_witness :
  isinstance (mkExc UnicodeError "label empty or too long") gaierror = false.
Proof.
  exact (resolver_never_raises_gaierror
           (socket_with
              (fun _ => Raise (mkExc UnicodeError "label empty or too long")))
           "a..b" w0 _ _ eq_refl).
Defined.



(** ** What the lookup client lets through *)

(** X6.  An exception of the registry query that is no instance of
    [Exception] (an interrupt, an exit) is handled by neither clause: it
    leaves [asn_lookup] and nothing is printed. *)
Theorem lookup_propagates_non_Exception
        {Obj : Type} (registry : Registry Obj) (ip : string) (e : exc)
        (w : World) :
  registry_query registry ip ["whois"] = Raise e ->
  isinstance e Exception = false ->
  asn_lookup registry ip w
  = (Raise e, mkWorld (stdout w) (calls w ++ query_log registry ip)).
Proof. intros H He. now apply asn_lookup_propagates. Qed.

Lemma lookup_propagates_non_Exception_witness :
  asn_lookup (failing_registry (mkExc KeyboardInterrupt "")) "8.8.8.8" w0
  = (Raise (mkExc KeyboardInterrupt ""),
     mkWorld [] [CallIPWhois "8.8.8.8"; CallLookupRdap ["whois"]]).
Proof.
  exact (lookup_propagates_non_Exception
           (failing_registry (mkExc KeyboardInterrupt "")) "8.8.8.8" _ w0
           eq_refl eq_refl).
Defined.

(** X7.  An exception that leaves [asn_lookup] is the one the registry query
    raised, and it is no instance of [Exception]: every [Exception] is
    turned into a printed line and [None]. *)
Theorem asn_lookup_raises_no_Exception
        {Obj : Type} (registry : Registry Obj) (ip : string)
        (w w' : World) (e : exc) :
  asn_lookup registry ip w = (Raise e, w') ->
  registry_query registry ip ["whois"] = Raise e
  /\ isinstance e Exception = false.
Proof.
  destruct (registry_query registry ip ["whois"]) as [res|e0] eqn:H.
  - rewrite (asn_lookup_answered registry ip res w H). discriminate.
  - rewrite (asn_lookup_raised registry ip e0 w H). cbn [handle].
    destruct (isinstance e0 IPDefinedError); [discriminate|].
    destruct (isinstance e0 Exception) eqn:He; [discriminate|].
    cbn. intros [= <- _]. now split.
Qed.

Lemma asn_lookup_raises_no_Exception_witness :
  registry_query (refusing_registry (mkExc SystemExit "")) "8.8.8.8" ["whois"]
  = Raise (mkExc SystemExit "")
  /\ isinstance (mkExc SystemExit "") Exception = false.
Proof.
  exact (asn_lookup_raises_no_Exception
           (refusing_registry (mkExc SystemExit "")) "8.8.8.8" w0 _ _ eq_refl).
Defined.

(** ** The command-line block as a whole *)

Section MainFacts.

Context {Obj : Type}.
Variable socket : Socket.
Variable registry : Registry Obj.
Variable repr : value -> string.

Lemma not_empty_eqb (s : string) : s <> "" -> String.eqb s "" = false.
Proof. intros H. now destruct (String.eqb_spec s ""). Qed.

Lemma main_with_address (s : string) (packed : N) (w : World) :
  inet_aton socket s = Return packed -> s <> "" ->
  main socket registry repr s w
  = lookup_and_print registry repr s
      (mkWorld (stdout w) (calls w ++ [CallInetAton s])).
Proof.
  intros H Hne. unfold main. unfold bind at 1.
  rewrite (resolve_accepted socket s packed w H).
  cbn [truthy_str]. rewrite (not_empty_eqb s Hne). reflexivity.
Qed.

Lemma main_with_hostname (h a : string) (e : exc) (w : World) :
  inet_aton socket h = Raise e -> isinstance e OSError = true ->
  gethostbyname socket h = Return a -> a <> "" ->
  main socket registry repr h w
  = lookup_and_print registry repr a
      (mkWorld (stdout w ++ [""; "IP address for " ++ h ++ " is " ++ a; ""])
               (calls w ++ [CallInetAton h; CallGetHostByName h])).
Proof.
  intros H He Ha Hne. unfold main. unfold bind at 1.
  rewrite (resolve_by_name socket h a e w H He Ha).
  cbn [truthy_str]. rewrite (not_empty_eqb a Hne).
  cbn [negb truthy_bool when]. unfold lookup_and_print, bind, print.
  cbn [stdout calls]. now rewrite <- !app_assoc.
Qed.

Lemma lookup_and_print_failure (ip : string) (e : exc) (w : World) :
  registry_query registry ip ["whois"] = Raise e ->
  isinstance e Exception = true ->
  lookup_and_print registry repr ip w
  = (Return tt,
     mkWorld
       (stdout w ++
        [(if isinstance e IPDefinedError then "Error: "
          else "ASN lookup failed: ") ++ exc_str e])
       (calls w ++ query_log registry ip)).
Proof.
  intros H He. unfold lookup_and_print. unfold bind at 1.
  destruct (isinstance e IPDefinedError) eqn:Hr.
  - now rewrite (asn_lookup_reserved registry ip e w H Hr).
  - now rewrite (asn_lookup_failed registry ip e w H Hr He).
Qed.

Lemma lookup_and_print_falsy (ip : string) (res : value) (w : World) :
  registry_query registry ip ["whois"] = Return res ->
  truthy res = false ->
  lookup_and_print registry repr ip w
  = (Return tt, mkWorld (stdout w) (calls w ++ query_log registry ip)).
Proof.
  intros H Hres. unfold lookup_and_print. unfold bind at 1.
  rewrite (asn_lookup_answered registry ip res w H). now rewrite Hres.
Qed.

End MainFacts.

(** X8.  Input that the parse step rejects with [socket.error] and that
    the name service fails to resolve with [gaierror]: the block prints the
    resolver's message, then its own, ends normally and never touches the
    registry. *)
Theorem main_invalid_input
        {Obj : Type} (socket : Socket) (registry : Registry Obj)
        (repr : value -> string) (s : string) (e1 e2 : exc) (w : World) :
  inet_aton socket s = Raise e1 -> isinstance e1 OSError = true ->
  gethostbyname socket s = Raise e2 -> isinstance e2 gaierror = true ->
  main socket registry repr s w
  = (Return tt,
     mkWorld
       (stdout w ++
        ["Invalid input: neither a valid IP address nor a resolvable domain.";
         "Could not perform ASN lookup due to invalid input."])
       (calls w ++ [CallInetAton s; CallGetHostByName s])).
Proof.
  intros H1 He1 H2 He2. unfold main. unfold bind at 1.
  rewrite (resolve_failed socket s e1 e2 w H1 He1 H2 He2).
  cbn. unfold print. cbn [stdout calls]. now rewrite <- app_assoc.
Qed.

Lemma main_invalid_input_witness :
  main (socket_with stub_dns) (answering_registry response_with_events)
       stub_repr "no such host" w0
  = (Return tt,
     mkWorld
       ["Invalid input: neither a valid IP address nor a resolvable domain.";
        "Could not perform ASN lookup due to invalid input."]
       [CallInetAton "no such host"; CallGetHostByName "no such host"]).
Proof.
  exact (main_invalid_input (socket_with stub_dns)
           (answering_registry response_with_events) stub_repr
           "no such host" _ _ w0 eq_refl eq_refl eq_refl eq_refl).
Defined.

(** X9.  Input resolved as a host name: the block prints an empty line, the
    line [IP address for <input> is <address>] and an empty line, and then
    looks up the resolved address, not the name. *)
Theorem main_hostname
        {Obj : Type} (socket : Socket) (registry : Registry Obj)
        (repr : value -> string) (h a : string) (e : exc) (w : World) :
  inet_aton socket h = Raise e -> isinstance e OSError = true ->
  gethostbyname socket h = Return a -> a <> "" ->
  main socket registry repr h w
  = lookup_and_print registry repr a
      (mkWorld (stdout w ++ [""; "IP address for " ++ h ++ " is " ++ a; ""])
               (calls w ++ [CallInetAton h; CallGetHostByName h])).
Proof. intros H He Ha Hne. now apply main_with_hostname with e. Qed.

Lemma main_hostname_witness :
  main (socket_with stub_dns) (answering_registry response_with_events)
       stub_repr "dns.google" w0
  = lookup_and_print (answering_registry response_with_events) stub_repr
      "8.8.8.8"
      (mkWorld [""; "IP address for dns.google is 8.8.8.8"; ""]
               [CallInetAton "dns.google"; CallGetHostByName "dns.google"]).
Proof.
  refine (main_hostname (socket_with stub_dns)
            (answering_registry response_with_events) stub_repr
            "dns.google" "8.8.8.8"
            (mkExc OSError "illegal IP address string passed to inet_aton")
            w0 eq_refl eq_refl eq_refl _).
  discriminate.
Defined.

(** X10.  When the registry query fails with an [Exception], the block ends
    normally having printed the one line of [asn_lookup] and nothing else:
    no header, no further message. *)
Theorem main_lookup_failure
        {Obj : Type} (socket : Socket) (registry : Registry Obj)
        (repr : value -> string) (s : string) (packed : N) (e : exc)
        (w : World) :
  inet_aton socket s = Return packed -> s <> "" ->
  registry_query registry s ["whois"] = Raise e ->
  isinstance e Exception = true ->
  main socket registry repr s w
  = (Return tt,
     mkWorld
       (stdout w ++
        [(if isinstance e IPDefinedError then "Error: "
          else "ASN lookup failed: ") ++ exc_str e])
       ((calls w ++ [CallInetAton s]) ++ query_log registry s)).
Proof.
  intros H Hne Hq He. rewrite (main_with_address _ _ _ s packed w H Hne).
  now rewrite (lookup_and_print_failure registry repr s e _ Hq He).
Qed.

Lemma main_lookup_failure_witness :
  main (socket_with stub_dns)
       (refusing_registry (mkExc IPDefinedError "10.0.0.1 is reserved"))
       stub_repr "10.0.0.1" w0
  = (Return tt,
     mkWorld ["Error: 10.0.0.1 is reserved"]
             [CallInetAton "10.0.0.1"; CallIPWhois "10.0.0.1"]).
Proof.
  refine (main_lookup_failure (socket_with stub_dns)
            (refusing_registry (mkExc IPDefinedError "10.0.0.1 is reserved"))
            stub_repr "10.0.0.1" 167772161%N _ w0 eq_refl _ eq_refl eq_refl).
  discriminate.
Defined.

(** X11.  For an address typed in directly, a response that is false as a
    condition (an empty dict, [None]) is treated like a failure that was
    already reported: the block prints nothing at all and ends normally. *)
Theorem main_silent_on_empty_response
        {Obj : Type} (socket : Socket) (registry : Registry Obj)
        (repr : value -> string) (s : string) (packed : N) (res : value)
        (w : World) :
  inet_aton socket s = Return packed -> s <> "" ->
  registry_query registry s ["whois"] = Return res ->
  truthy res = false ->
  main socket registry repr s w
  = (Return tt,
     mkWorld (stdout w)
             ((calls w ++ [CallInetAton s]) ++ query_log registry s)).
Proof.
  intros H Hne Hq Hres. rewrite (main_with_address _ _ _ s packed w H Hne).
  now rewrite (lookup_and_print_falsy registry repr s res _ Hq Hres).
Qed.

Lemma main_silent_on_empty_response_witness :
  main (socket_with stub_dns) (answering_registry (VDict [])) stub_repr
       "8.8.8.8" w0
  = (Return tt,
     mkWorld [] [CallInetAton "8.8.8.8"; CallIPWhois "8.8.8.8";
                 CallLookupRdap ["whois"]]).
Proof.
  refine (main_silent_on_empty_response (socket_with stub_dns)
            (answering_registry (VDict [])) stub_repr "8.8.8.8"
            134744072%N _ w0 eq_refl _ eq_refl eq_refl).
  discriminate.
Defined.

(** ** The sections of the report *)

Section ReportFacts.

Variable repr : value -> string.

Lemma print_asn_all_keys
      (ip : string) (entries : list (string * value)) (w : World) :
  forallb (has_key entries) asn_fields = true ->
  print_asn repr ip (VDict entries) w
  = (Return tt,
     mkWorld
       (stdout w ++
        ("ASN Information for " ++ ip ++ ":") :: "" ::
        map (field_line repr entries) asn_fields)
       (calls w)).
Proof.
  unfold has_key, field_line. cbn [forallb asn_fields map fst snd].
  unfold print_asn, subscript, bind, print, ret.
  destruct (dict_lookup "asn" entries); [|discriminate].
  destruct (dict_lookup "asn_cidr" entries); [|discriminate].
  destruct (dict_lookup "asn_country_code" entries); [|discriminate].
  destruct (dict_lookup "asn_registry" entries); [|discriminate].
  destruct (dict_lookup "asn_description" entries); [|discriminate].
  destruct (dict_lookup "asn_date" entries); [|discriminate].
  intros _. cbn [stdout calls]. now rewrite <- !app_assoc.
Qed.

Lemma print_asn_first_missing
      (ip : string) (entries : list (string * value))
      (before after : list (string * string)) (label key : string)
      (w : World) :
  asn_fields = (before ++ (label, key) :: after)%list ->
  forallb (has_key entries) before = true ->
  dict_lookup key entries = None ->
  print_asn repr ip (VDict entries) w
  = (Raise (mkExc KeyError ("'" ++ key ++ "'")),
     mkWorld
       (stdout w ++
        ("ASN Information for " ++ ip ++ ":") :: "" ::
        map (field_line repr entries) before)
       (calls w)).
Proof.
  intros Hsplit Hbefore Hkey. unfold asn_fields in Hsplit.
  do 7 (try destruct before as [|[? ?] before]);
    cbn in Hsplit; try discriminate Hsplit;
    inversion Hsplit; subst; clear Hsplit;
    unfold has_key in Hbefore; cbn [forallb snd] in Hbefore;
    unfold print_asn, subscript, bind, print, ret, raise, field_line;
    cbn [map fst snd];
    repeat match type of Hbefore with
           | context [dict_lookup ?k entries] =>
               destruct (dict_lookup k entries);
               [cbn [andb] in Hbefore|cbn in Hbefore; discriminate Hbefore]
           end;
    rewrite Hkey; cbn [stdout calls]; rewrite <- ?app_assoc; reflexivity.
Qed.

Lemma print_network_fields
      (entries network : list (string * value)) (w : World) :
  dict_lookup "network" entries = Some (VDict network) -> network <> [] ->
  print_network repr (VDict entries) w
  = (Return tt,
     mkWorld
       (stdout w ++
        (newline ++ "Network Details:") ::
        map (field_line repr network) network_fields)
       (calls w)).
Proof.
  intros H Hne. unfold print_network, get. unfold bind at 1. rewrite H.
  unfold ret at 1. destruct network as [|entry rest]; [now destruct Hne|].
  cbn [truthy when]. set (net := entry :: rest).
  unfold print_network_field, get, bind, print, ret, field_line.
  cbn [map network_fields fst snd].
  destruct (dict_lookup "name" net);
    destruct (dict_lookup "start_address" net);
    destruct (dict_lookup "end_address" net);
    destruct (dict_lookup "country" net);
    destruct (dict_lookup "type" net);
    destruct (dict_lookup "description" net);
    cbn [stdout calls]; now rewrite <- !app_assoc.
Qed.

Lemma print_network_falsy
      (entries : list (string * value)) (network : value) (w : World) :
  dict_lookup "network" entries = Some network -> truthy network = false ->
  print_network repr (VDict entries) w = (Return tt, w).
Proof.
  intros H Hfalse. unfold print_network, get. unfold bind at 1. rewrite H.
  unfold ret at 1. now rewrite Hfalse.
Qed.

Lemma print_events_falsy (entries : list (string * value)) (w : World) :
  match dict_lookup "events" entries with
  | Some events => truthy events = false
  | None => True
  end ->
  print_events repr (VDict entries) w = (Return tt, w).
Proof.
  intros H. unfold print_events, get. unfold bind at 1.
  destruct (dict_lookup "events" entries) as [events|].
  - unfold ret at 1. now rewrite H.
  - reflexivity.
Qed.

End ReportFacts.

(** X12.  When the response holds all six ASN keys, lines 101-108 print the
    header, an empty line and the six fields in the order of the source,
    and raise nothing. *)
Theorem report_prints_all_asn_fields
        (repr : value -> string) (ip : string)
        (entries : list (string * value)) (w : World) :
  forallb (has_key entries) asn_fields = true ->
  print_asn repr ip (VDict entries) w
  = (Return tt,
     mkWorld
       (stdout w ++
        ("ASN Information for " ++ ip ++ ":") :: "" ::
        map (field_line repr entries) asn_fields)
       (calls w)).
Proof. intros H. now apply print_asn_all_keys. Qed.

Lemma report_prints_all_asn_fields_witness :
  print_asn stub_repr "8.8.8.8" response_without_network w0
  = (Return tt,
     mkWorld
       ["ASN Information for 8.8.8.8:"; ""; "ASN: 15169";
        "ASN CIDR: 8.8.8.0/24"; "ASN Country Code: US"; "ASN Registry: arin";
        "ASN Description: GOOGLE, US"; "ASN Allocation Date: 2023-12-28"]
       []).
Proof.
  exact (report_prints_all_asn_fields stub_repr "8.8.8.8" google_asn w0
           eq_refl).
Defined.

(** X13.  The ASN fields are read with [asn_info[key]], not with [get]: at
    the first key the response lacks, [KeyError] is raised (its text is the
    key in quotes), after the header and the fields before that key have
    been printed; no [N/A] stands in. *)
Theorem report_stops_at_missing_asn_key
        (repr : value -> string) (ip : string)
        (entries : list (string * value))
        (before after : list (string * string)) (label key : string)
        (w : World) :
  asn_fields = (before ++ (label, key) :: after)%list ->
  forallb (has_key entries) before = true ->
  dict_lookup key entries = None ->
  print_asn repr ip (VDict entries) w
  = (Raise (mkExc KeyError ("'" ++ key ++ "'")),
     mkWorld
       (stdout w ++
        ("ASN Information for " ++ ip ++ ":") :: "" ::
        map (field_line repr entries) before)
       (calls w)).
Proof. intros H1 H2 H3. now apply print_asn_first_missing with after label. Qed.

Lemma report_stops_at_missing_asn_key_witness :
  print_asn stub_repr "8.8.8.8" (VDict [("asn", VStr "15169")]) w0
  = (Raise (mkExc KeyError "'asn_cidr'"),
     mkWorld ["ASN Information for 8.8.8.8:"; ""; "ASN: 15169"] []).
Proof.
  exact (report_stops_at_missing_asn_key stub_repr "8.8.8.8"
           [("asn", VStr "15169")] [("ASN: ", "asn")]
           [("ASN Country Code: ", "asn_country_code");
            ("ASN Registry: ", "asn_registry");
            ("ASN Description: ", "asn_description");
            ("ASN Allocation Date: ", "asn_date")]
           "ASN CIDR: " "asn_cidr" w0 eq_refl eq_refl eq_refl).
Defined.

(** X14.  When the response holds a non-empty [network] dict, lines 112-119
    print the section header and all six network lines in the order of the
    source, each with the entry under its key or [N/A] where the dict has
    none, and raise nothing. *)
Theorem report_prints_network_section
        (repr : value -> string) (entries network : list (string * value))
        (w : World) :
  dict_lookup "network" entries = Some (VDict network) -> network <> [] ->
  print_network repr (VDict entries) w
  = (Return tt,
     mkWorld
       (stdout w ++
        (newline ++ "Network Details:") ::
        map (field_line repr network) network_fields)
       (calls w)).
Proof. intros H Hne. now apply print_network_fields. Qed.

Lemma report_prints_network_section_witness :
  print_network stub_repr response_with_network w0
  = (Return tt,
     mkWorld
       [newline ++ "Network Details:"; "Network Name: GOGL";
        "Network Start IP: N/A"; "Network End IP: N/A";
        "Network Country: None"; "Network Type: N/A";
        "Network Description: N/A"]
       []).
Proof.
  refine (report_prints_network_section stub_repr
            (google_asn ++
             [("network", VDict [("name", VStr "GOGL"); ("country", VNone)])])
            [("name", VStr "GOGL"); ("country", VNone)] w0 eq_refl _).
  discriminate.
Defined.

(** X15.  A [network] entry that is there but false as a condition ([None],
    an empty dict) is treated like a missing one: the section is left
    out. *)
Theorem report_skips_falsy_network
        (repr : value -> string) (entries : list (string * value))
        (network : value) (w : World) :
  dict_lookup "network" entries = Some network -> truthy network = false ->
  print_network repr (VDict entries) w = (Return tt, w).
Proof. intros H Hfalse. now apply print_network_falsy with network. Qed.

Lemma report_skips_falsy_network_witness :
  print_network stub_repr (VDict [("network", VNone)]) w0 = (Return tt, w0).
Proof.
  exact (report_skips_falsy_network stub_repr [("network", VNone)] VNone w0
           eq_refl eq_refl).
Defined.

(** X16.  With no [events] entry, or one that is false as a condition
    ([None], an empty list), lines 122-126 print nothing, not even the
    section header. *)
Theorem report_skips_absent_events
        (repr : value -> string) (entries : list (string * value))
        (w : World) :
  match dict_lookup "events" entries with
  | Some events => truthy events = false
  | None => True
  end ->
  print_events repr (VDict entries) w = (Return tt, w).
Proof. intros H. now apply print_events_falsy. Qed.

Lemma report_skips_absent_events_witness :
  print_events stub_repr response_without_network w0 = (Return tt, w0).
Proof.
  exact (report_skips_absent_events stub_repr google_asn w0 I).
Defined.

(** X17.  The whole report for an address typed in directly, on a response
    with the six ASN keys, a non-empty network dict and a list of event
    dicts: the block ends normally, having made one parse call and one
    registry query and printed the ASN lines, then the network section,
    then the events, in that order. *)
Theorem main_prints_full_report
        {Obj : Type} (socket : Socket) (registry : Registry Obj)
        (repr : value -> string) (s : string) (packed : N)
        (entries network : list (string * value)) (events : list value)
        (w : World) :
  inet_aton socket s = Return packed -> s <> "" ->
  registry_query registry s ["whois"] = Return (VDict entries) ->
  forallb (has_key entries) asn_fields = true ->
  dict_lookup "network" entries = Some (VDict network) -> network <> [] ->
  dict_lookup "events" entries = Some (VList events) ->
  forallb is_dict events = true ->
  main socket registry repr s w
  = (Return tt,
     mkWorld
       (stdout w ++
        (("ASN Information for " ++ s ++ ":") :: "" ::
         map (field_line repr entries) asn_fields) ++
        ((newline ++ "Network Details:") ::
         map (field_line repr network) network_fields) ++
        match events with
        | [] => []
        | _ => (newline ++ "Event History:") :: map (event_text repr) events
        end)
       ((calls w ++ [CallInetAton s]) ++ query_log registry s)).
Proof.
  intros H Hne Hq Hasn Hnet Hnet' Hev Hdicts.
  rewrite (main_with_address socket registry repr s packed w H Hne).
  unfold lookup_and_print. unfold bind at 1.
  rewrite (asn_lookup_answered registry s _ _ Hq).
  assert (Htrue : truthy (VDict entries) = true).
  { destruct entries; [discriminate Hasn|reflexivity]. }
  rewrite Htrue. cbn [when]. unfold bind at 1.
  rewrite (print_asn_all_keys repr s entries _ Hasn). unfold bind at 1.
  rewrite (print_network_fields repr entries network _ Hnet Hnet').
  rewrite (print_events_listed repr entries events _ Hev Hdicts).
  cbn [stdout calls]. now rewrite <- !app_assoc.
Qed.

Lemma main_prints_full_report_witness :
  main (socket_with stub_dns) (answering_registry (VDict response_complete))
       stub_repr "8.8.8.8" w0
  = (Return tt,
     mkWorld
       ["ASN Information for 8.8.8.8:"; ""; "ASN: 15169";
        "ASN CIDR: 8.8.8.0/24"; "ASN Country Code: US"; "ASN Registry: arin";
        "ASN Description: GOOGLE, US"; "ASN Allocation Date: 2023-12-28";
        newline ++ "Network Details:"; "Network Name: GOGL";
        "Network Start IP: N/A"; "Network End IP: N/A"; "Network Country: US";
        "Network Type: N/A"; "Network Description: N/A";
        newline ++ "Event History:"; "Event: last changed, Date: 2020-01-01";
        "Event: registration, Date: 2015-05-05"]
       [CallInetAton "8.8.8.8"; CallIPWhois "8.8.8.8";
        CallLookupRdap ["whois"]]).
Proof.
  refine (main_prints_full_report (socket_with stub_dns)
            (answering_registry (VDict response_complete)) stub_repr
            "8.8.8.8" 134744072%N response_complete
            [("name", VStr "GOGL"); ("country", VStr "US")] unordered_events
            w0 eq_refl _ eq_refl eq_refl eq_refl _ eq_refl eq_refl);
    discriminate.
Defined.

(** ** The network section, present or not *)

(** C6, as amended.  When the response has no [network] entry, the lookup
    still returns the response, and the network section is left out as a
    whole: no field of it is printed, as a sentinel or otherwise.  When the
    response holds a non-empty network dict, the section is printed with
    all six fields in the order of the source, each showing the value of
    its entry, or [N/A] when the dict has no such entry. *)
Theorem missing_network_prints_no_section
        {Obj : Type} (registry : Registry Obj) (repr : value -> string)
        (ip : string) (entries : list (string * value)) (w : World) :
  registry_query registry ip ["whois"] = Return (VDict entries) ->
  dict_lookup "network" entries = None ->
  asn_lookup registry ip w
  = (Return (VDict entries),
     mkWorld (stdout w) (calls w ++ query_log registry ip))
  /\ (forall w1, print_network repr (VDict entries) w1 = (Return tt, w1))
  /\ (forall others network w1,
        dict_lookup "network" others = Some (VDict network) ->
        network <> [] ->
        print_network repr (VDict others) w1
        = (Return tt,
           mkWorld
             (stdout w1 ++
              (newline ++ "Network Details:") ::
              map (field_line repr network) network_fields)
             (calls w1)))
  /\ (forall network field,
        field_line repr network field
        = fst field ++
          match dict_lookup (snd field) network with
          | Some v => format repr v
          | None => "N/A"
          end).
Proof.
  intros H Hnet. split; [now apply asn_lookup_answered|]. split; [|split].
  - intros w1. now apply print_network_without_network.
  - intros others network w1 Hsome Hne. now apply print_network_fields.
  - intros network field. unfold field_line.
    now destruct (dict_lookup (snd field) network).
Qed.

Lemma missing_network_prints_no_section_witness :
  asn_lookup (answering_registry response_without_network) "8.8.8.8" w0
  = (Return response_without_network,
     mkWorld [] [CallIPWhois "8.8.8.8"; CallLookupRdap ["whois"]])
  /\ print_network stub_repr response_without_network w0 = (Return tt, w0)
  /\ print_network stub_repr response_with_network w0
     = (Return tt,
        mkWorld
          [newline ++ "Network Details:"; "Network Name: GOGL";
           "Network Start IP: N/A"; "Network End IP: N/A";
           "Network Country: None"; "Network Type: N/A";
           "Network Description: N/A"]
          []).
Proof.
  pose proof (missing_network_prints_no_section
                (answering_registry response_without_network) stub_repr
                "8.8.8.8" google_asn w0 eq_refl eq_refl)
    as [Hret [Hnone [Hsome _]]].
  refine (conj Hret (conj (Hnone w0) _)).
  refine (Hsome (google_asn ++
                 [("network",
                   VDict [("name", VStr "GOGL"); ("country", VNone)])])%list
                [("name", VStr "GOGL"); ("country", VNone)] w0 eq_refl _).
  discriminate.
Defined.
